(** * DeAuthShield: the deauthentication-flood detection core

    A shallow embedding of [detector.py] (class [DeAuthDetector]) and of the
    statistics read-out of [deauth_simulator.py] (class [DeauthDetector]),
    followed by the properties of the sliding-window detector.  The traffic
    generator of the simulated detector and the buffers of its plot
    ([PlotCanvas.update_plot]) are embedded as well; what the generator draws
    at random is an explicit argument.

    Conventions of the embedding.
    - [time.time()] returns a float; it is read once per call of
      [process_packet].  The reading is an explicit argument of the model and
      is a rational number: subtraction and comparison are exact, the
      rounding of binary64 is not modelled.
    - Python integers are [Z]; [len] is a [nat] injected into [Z] where it is
      compared with the threshold.
    - The [QTextEdit] behind [console_output] is the list of the lines it
      holds; [append] adds one line at the end.
    - Appending to the log file is assumed to succeed; the lines written are
      kept in a trace field of the detector.
    - A float rendered with one or six decimals is rounded half to even on
      its rational value. *)

From Stdlib Require Import QArith Qround Qabs Lqa ZArith Lia DecimalString.
From Stdlib Require HexadecimalString.
From stdpp Require Import gmap strings list sorting.

(** ** detector.py *)

Module Detector.

(** The lines produced by the two f-strings of [process_packet]; [Text] is
    any other line the console already holds. *)
Inductive Line : Type :=
| Text (s : string)
| DeauthDetected (mac : string) (ts : Q)
| ThresholdExceeded (count : nat) (window : Q).

(** What [process_packet] reads from a sniffed frame:
    [pkt.haslayer(Dot11Deauth)] and [pkt.addr2]. *)
Record Packet : Type := {
  haslayer_Dot11Deauth : bool;
  addr2 : string
}.

Record DeAuthDetector : Type := {
  interface : string;
  threshold : Z;
  time_window : Q;
  log_path : option string;
  console_output : list Line;
  packet_times : list Q;
  suspicious_macs : gset string;
  total_deauth_packets : Z;
  alerts_triggered : Z;
  running : bool;
  (** trace of the lines appended to the file at [log_path] *)
  log_written : list Line
}.

(** [DeAuthDetector.__init__]: every argument is stored as given. *)
Definition __init__ (interface : string) (threshold : Z) (time_window : Q)
    (log_path : option string) (console_output : list Line) : DeAuthDetector :=
  {| interface := interface;
     threshold := threshold;
     time_window := time_window;
     log_path := log_path;
     console_output := console_output;
     packet_times := [];
     suspicious_macs := ∅;
     total_deauth_packets := 0;
     alerts_triggered := 0;
     running := true;
     log_written := [] |}.

(** Truth value of [self.log_path]: [None] and the empty string are false. *)
Definition truthy (p : option string) : bool :=
  match p with
  | None => false
  | Some s => negb (String.eqb s "")
  end.

(** The list comprehension of the alert logic:
    [[t for t in packet_times if ts - t <= time_window]]. *)
Definition within_window (ts window : Q) (times : list Q) : list Q :=
  List.filter (fun t => Qle_bool (ts - t) window) times.

(** [DeAuthDetector.process_packet]; [now] is the value of [time.time()]. *)
Definition process_packet (now : Q) (pkt : Packet) (self : DeAuthDetector)
    : DeAuthDetector :=
  if haslayer_Dot11Deauth pkt then
    let total := (total_deauth_packets self + 1)%Z in
    let ts := now in
    let times := packet_times self ++ [ts] in
    let mac := addr2 pkt in
    let macs := suspicious_macs self ∪ {[ mac ]} in
    let msg := DeauthDetected mac ts in
    let console := console_output self ++ [msg] in
    let written :=
      if truthy (log_path self) then log_written self ++ [msg]
      else log_written self in
    let times := within_window ts (time_window self) times in
    let alert := (Z.of_nat (length times) >=? threshold self)%Z in
    {| interface := interface self;
       threshold := threshold self;
       time_window := time_window self;
       log_path := log_path self;
       console_output :=
         if alert
         then console ++ [ThresholdExceeded (length times) (time_window self)]
         else console;
       packet_times := times;
       suspicious_macs := macs;
       total_deauth_packets := total;
       alerts_triggered :=
         if alert then (alerts_triggered self + 1)%Z else alerts_triggered self;
       running := running self;
       log_written := written |}
  else self.

(** A frame together with the clock reading of the call that handles it. *)
Abbreviation Event := (Q * Packet)%type (only parsing).

(** Successive calls of [process_packet], one for each sniffed frame. *)
Definition process_packets (evs : list Event) (self : DeAuthDetector)
    : DeAuthDetector :=
  fold_left (fun d ev => process_packet (fst ev) (snd ev) d) evs self.

(** A deauthentication frame sent by [mac]. *)
Definition deauth (mac : string) : Packet :=
  {| haslayer_Dot11Deauth := true; addr2 := mac |}.

Definition is_deauth (ev : Event) : bool := haslayer_Dot11Deauth (snd ev).


End Detector.

(** ** deauth_simulator.py: the statistics of the simulated detector *)

Module Simulator.

(** A value stored in a dictionary handed to the interface. *)
Inductive Value : Type :=
| VInt (z : Z)
| VStr (s : string)
| VBool (b : bool)
| VFloat (q : Q).

(** [self.stats]: a dictionary whose four keys are set by [__init__] and
    never removed. *)
Record Stats : Type := {
  total : Z;
  deauth : Z;
  alerts : Z;
  broadcast : Z
}.

Record DeauthDetector : Type := {
  running : bool;
  interface : string;
  (** [deque(maxlen=1000)] of the packet dictionaries of [log_packet] *)
  packet_history : list (gmap string Value);
  normal_rate : Q;
  attack_active : bool;
  stats : Stats;
  start_time : Q;
  last_attack_time : Q;
  attack_cooldown : Z
}.

(** [DeauthDetector.__init__]; [now] is the value of [time.time()]. *)
Definition __init__ (now : Q) : DeauthDetector :=
  {| running := false;
     interface := "wlan0";
     packet_history := [];
     normal_rate := 0.1%Q;
     attack_active := false;
     stats := {| total := 0%Z; deauth := 0%Z; alerts := 0%Z; broadcast := 0%Z |};
     start_time := now;
     last_attack_time := 0%Q;
     attack_cooldown := 30%Z |}.

(** Decimal numeral of an integer, as [str] prints it. *)
Definition str (z : Z) : string := NilZero.string_of_int (Z.to_int z).

(** Nearest integer, ties to the even one. *)
Definition round_half_even (q : Q) : Z :=
  let f := Qfloor q in
  match (q - inject_Z f ?= 1 # 2)%Q with
  | Lt => f
  | Gt => (f + 1)%Z
  | Eq => if Z.even f then f else (f + 1)%Z
  end.

(** The format specification [.1f]. *)
Definition format_1f (q : Q) : string :=
  let tenths := round_half_even (Qabs q * 10)%Q in
  let body := str (tenths / 10)%Z +:+ "." +:+ str (tenths mod 10)%Z in
  match (q ?= 0)%Q with
  | Lt => "-" +:+ body
  | _ => body
  end.

(** Two digits, padded with a zero ([%H], [%M] and [%S]). *)
Definition two_digits (z : Z) : string :=
  if (z <? 10)%Z then "0" +:+ str z else str z.

(** [datetime.utcfromtimestamp(t).strftime('%H:%M:%S')]: [t] is rounded to
    the microsecond, then the time of day of its whole seconds is printed. *)
Definition strftime_HMS (t : Q) : string :=
  let secs := (round_half_even (t * 1000000)%Q / 1000000)%Z in
  two_digits ((secs / 3600) mod 24)%Z
  +:+ ":" +:+ two_digits ((secs / 60) mod 60)%Z
  +:+ ":" +:+ two_digits (secs mod 60)%Z.

(** The local variable [rate] of [get_stats]:
    [self.stats["deauth"] / uptime if uptime > 0 else 0]. *)
Definition rate_of (uptime : Q) (self : DeauthDetector) : Q :=
  if negb (Qle_bool uptime 0)
  then (inject_Z (deauth (stats self)) / uptime)%Q
  else 0%Q.

(** [DeauthDetector.get_stats]; [now] is the value of [time.time()].  The
    result is the dictionary returned together with the detector after the
    call. *)
Definition get_stats (now : Q) (self : DeauthDetector)
    : gmap string Value * DeauthDetector :=
  let uptime := (now - start_time self)%Q in
  let rate := rate_of uptime self in
  (<[ "uptime" := VStr (strftime_HMS uptime) ]>
   (<[ "deauth" := VInt (deauth (stats self)) ]>
   (<[ "rate" := VStr (format_1f rate) ]>
   (<[ "alerts" := VInt (alerts (stats self)) ]>
   (<[ "broadcast" := VInt (broadcast (stats self)) ]>
   (<[ "interface" := VStr (interface self) ]> ∅))))),
   self).

(** [DeauthDetector.log_packet], without the signal it emits; [now] is the
    value of [time.time()].  A full [deque(maxlen=1000)] drops its oldest
    entry on [append]. *)
Definition log_packet (now : Q) (src dst : string) (reason : Z) (attack : bool)
    (self : DeauthDetector) : DeauthDetector :=
  let packet : gmap string Value :=
    <[ "timestamp" := VFloat now ]>
    (<[ "src" := VStr src ]>
    (<[ "dst" := VStr dst ]>
    (<[ "type" := VStr (if attack then "ALERT" else "DEAUTH") ]>
    (<[ "reason" := VInt reason ]>
    (<[ "attack" := VBool attack ]>
    (<[ "info" := VStr (if String.eqb dst "ff:ff:ff:ff:ff:ff"
                        then "Broadcast" else "Unicast") ]> ∅)))))) in
  let history := packet_history self ++ [packet] in
  {| running := running self;
     interface := interface self;
     packet_history := drop (length history - 1000) history;
     normal_rate := normal_rate self;
     attack_active := attack_active self;
     stats := {| total := (total (stats self) + 1)%Z;
                 deauth := (deauth (stats self) + 1)%Z;
                 alerts := alerts (stats self);
                 broadcast := broadcast (stats self) |};
     start_time := start_time self;
     last_attack_time := last_attack_time self;
     attack_cooldown := attack_cooldown self |}.

(** [DeauthDetector.stop], without the signal it emits and the wait for the
    thread. *)
Definition stop (self : DeauthDetector) : DeauthDetector :=
  {| running := false;
     interface := interface self;
     packet_history := packet_history self;
     normal_rate := normal_rate self;
     attack_active := attack_active self;
     stats := stats self;
     start_time := start_time self;
     last_attack_time := last_attack_time self;
     attack_cooldown := attack_cooldown self |}.

(** *** The traffic generator of the simulated detector *)

(** The dictionary [packet] built by [log_packet]. *)
Definition packet_dict (now : Q) (src dst : string) (reason : Z)
    (attack : bool) : gmap string Value :=
  <[ "timestamp" := VFloat now ]>
  (<[ "src" := VStr src ]>
  (<[ "dst" := VStr dst ]>
  (<[ "type" := VStr (if attack then "ALERT" else "DEAUTH") ]>
  (<[ "reason" := VInt reason ]>
  (<[ "attack" := VBool attack ]>
  (<[ "info" := VStr (if String.eqb dst "ff:ff:ff:ff:ff:ff"
                      then "Broadcast" else "Unicast") ]> ∅)))))).

(** The three Qt signals of the class, as the values they carry. *)
Inductive Signal : Type :=
| packet_received (packet : gmap string Value)
| attack_detected (attack_type details src dst : string)
| status_update (level message source : string).

(** The format specification [02x]: lower-case hexadecimal, padded with a
    zero up to two characters. *)
Definition format_02x (n : Z) : string :=
  let s := HexadecimalString.NilZero.string_of_int (Z.to_hex_int n) in
  if (String.length s <? 2)%nat then "0" +:+ s else s.

(** [str.upper] on the characters of a hexadecimal address. *)
Definition upper_ascii (c : Ascii.ascii) : Ascii.ascii :=
  let n := Ascii.nat_of_ascii c in
  if ((97 <=? n)%nat && (n <=? 122)%nat)%bool
  then Ascii.ascii_of_nat (n - 32) else c.

Fixpoint upper (s : string) : string :=
  match s with
  | EmptyString => EmptyString
  | String c rest => String (upper_ascii c) (upper rest)
  end.

(** [DeauthDetector.random_mac]; [byte i] is the [i]-th value returned by
    [random.randint(0, 255)]. *)
Definition random_mac (byte : nat -> Z) : string :=
  upper (String.concat ":" (map (fun i => format_02x (byte i)) (seq 0 6))).

(** [random.choice(["broadcast", "targeted", "flood"])]. *)
Inductive AttackType : Type := broadcast_attack | targeted_attack | flood_attack.

Definition attack_name (a : AttackType) : string :=
  match a with
  | broadcast_attack => "broadcast"
  | targeted_attack => "targeted"
  | flood_attack => "flood"
  end.

(** What one generated packet draws: the clock read by [log_packet], the
    bytes of the first and of the second [random_mac()], whether
    [random.choice] picks the broadcast address, and the reason code. *)
Record Draw : Type := {
  draw_clock : Q;
  draw_mac1 : nat -> Z;
  draw_mac2 : nat -> Z;
  draw_pick_broadcast : bool;
  draw_reason : Z
}.

(** [int(x)]: truncation towards zero. *)
Definition int_of_float (x : Q) : Z :=
  if Qle_bool 0 x then Qfloor x else Qceiling x.

(** [self.stats["broadcast"] += 1]. *)
Definition count_broadcast (self : DeauthDetector) : DeauthDetector :=
  {| running := running self;
     interface := interface self;
     packet_history := packet_history self;
     normal_rate := normal_rate self;
     attack_active := attack_active self;
     stats := {| total := total (stats self);
                 deauth := deauth (stats self);
                 alerts := alerts (stats self);
                 broadcast := (broadcast (stats self) + 1)%Z |};
     start_time := start_time self;
     last_attack_time := last_attack_time self;
     attack_cooldown := attack_cooldown self |}.

(** [self.attack_active = b]. *)
Definition set_attack_active (b : bool) (self : DeauthDetector)
    : DeauthDetector :=
  {| running := running self;
     interface := interface self;
     packet_history := packet_history self;
     normal_rate := normal_rate self;
     attack_active := b;
     stats := stats self;
     start_time := start_time self;
     last_attack_time := last_attack_time self;
     attack_cooldown := attack_cooldown self |}.

(** [self.stats["alerts"] += 1]. *)
Definition count_alert (self : DeauthDetector) : DeauthDetector :=
  {| running := running self;
     interface := interface self;
     packet_history := packet_history self;
     normal_rate := normal_rate self;
     attack_active := attack_active self;
     stats := {| total := total (stats self);
                 deauth := deauth (stats self);
                 alerts := (alerts (stats self) + 1)%Z;
                 broadcast := broadcast (stats self) |};
     start_time := start_time self;
     last_attack_time := last_attack_time self;
     attack_cooldown := attack_cooldown self |}.

(** [self.last_attack_time = t]. *)
Definition set_last_attack_time (t : Q) (self : DeauthDetector)
    : DeauthDetector :=
  {| running := running self;
     interface := interface self;
     packet_history := packet_history self;
     normal_rate := normal_rate self;
     attack_active := attack_active self;
     stats := stats self;
     start_time := start_time self;
     last_attack_time := t;
     attack_cooldown := attack_cooldown self |}.

(** The body of the loop of [simulate_attack] at index [i]: the state after
    it and the signals it emits. *)
Definition attack_packet (attack_type : AttackType) (packets : Z) (i : nat)
    (d : Draw) (self : DeauthDetector) : DeauthDetector * list Signal :=
  let src := random_mac (draw_mac1 d) in
  let dst :=
    match attack_type with
    | broadcast_attack => "ff:ff:ff:ff:ff:ff"
    | targeted_attack => random_mac (draw_mac2 d)
    | flood_attack =>
        if draw_pick_broadcast d then "ff:ff:ff:ff:ff:ff"
        else random_mac (draw_mac2 d)
    end in
  let self :=
    match attack_type with
    | broadcast_attack => count_broadcast self
    | _ => self
    end in
  let self := log_packet (draw_clock d) src dst (draw_reason d) true self in
  let logged :=
    packet_received (packet_dict (draw_clock d) src dst (draw_reason d) true) in
  if (Z.of_nat i =? int_of_float (inject_Z packets * 0.3))%Z
  then (self,
        [logged;
         attack_detected (attack_name attack_type) (str packets +:+ " packets")
           src
           (match attack_type with
            | broadcast_attack => "FF:FF:FF:FF:FF:FF"
            | _ => dst
            end)])
  else (self, [logged]).

(** [DeauthDetector.simulate_attack]: [attack_type] and [packets] are the
    values drawn by [random.choice] and [random.randint(15, 50)], [draw i]
    what the [i]-th packet draws.  The pauses of [time.sleep] leave no
    trace. *)
Definition simulate_attack (attack_type : AttackType) (packets : Z)
    (draw : nat -> Draw) (self : DeauthDetector)
    : DeauthDetector * list Signal :=
  let start :=
    (set_attack_active true self,
     [status_update "warning"
        ("Detected potential " +:+ attack_name attack_type
         +:+ " attack pattern") "detector"]) in
  let '(self, signals) :=
    fold_left
      (fun (acc : DeauthDetector * list Signal) i =>
         let '(s, out) := attack_packet attack_type packets i (draw i) (fst acc)
         in (s, snd acc ++ out))
      (seq 0 (Z.to_nat packets)) start in
  (count_alert (set_attack_active false self),
   signals ++ [status_update "info" "Attack simulation completed" "detector"]).

(** [DeauthDetector.generate_normal_packet]. *)
Definition generate_normal_packet (d : Draw) (self : DeauthDetector)
    : DeauthDetector * list Signal :=
  let src := random_mac (draw_mac1 d) in
  let dst :=
    if draw_pick_broadcast d then "ff:ff:ff:ff:ff:ff"
    else random_mac (draw_mac2 d) in
  (log_packet (draw_clock d) src dst (draw_reason d) false self,
   [packet_received (packet_dict (draw_clock d) src dst (draw_reason d) false)]).

(** What one turn of the loop of [run] reads and draws: the clock, the two
    values of [random.random()], and the draws of the attack and of the
    normal packet it may generate. *)
Record Turn : Type := {
  current_time : Q;
  attack_chance : Q;
  turn_attack_type : AttackType;
  turn_packets : Z;
  turn_draw : nat -> Draw;
  normal_chance : Q;
  turn_normal : Draw
}.

(** The condition that starts an attack in [run]. *)
Definition attack_starts (t : Turn) (self : DeauthDetector) : bool :=
  negb (attack_active self)
  && negb (Qle_bool (current_time t - last_attack_time self)
             (inject_Z (attack_cooldown self)))
  && negb (Qle_bool 0.002 (attack_chance t)).

(** The body of the [while self.running] loop of [run]. *)
Definition run_turn (t : Turn) (self : DeauthDetector)
    : DeauthDetector * list Signal :=
  let '(self, attack_signals) :=
    if attack_starts t self
    then
      let '(s, out) :=
        simulate_attack (turn_attack_type t) (turn_packets t) (turn_draw t)
          self in
      (set_last_attack_time (current_time t) s, out)
    else (self, []) in
  let '(self, normal_signals) :=
    if negb (Qle_bool (normal_rate self / 10) (normal_chance t))
    then generate_normal_packet (turn_normal t) self
    else (self, []) in
  (self, attack_signals ++ normal_signals).

(** Successive turns of the loop. *)
Definition run_turns (turns : list Turn) (self : DeauthDetector)
    : DeauthDetector * list Signal :=
  fold_left
    (fun (acc : DeauthDetector * list Signal) t =>
       let '(s, out) := run_turn t (fst acc) in (s, snd acc ++ out))
    turns (self, []).

End Simulator.

(** ** deauth_simulator.py: the buffers of the plot *)

Module PlotCanvas.
Import Simulator.

(** The fields of [PlotCanvas] that [update_plot] reads and writes; the two
    deques have [maxlen=100]. *)
Record PlotCanvas : Type := {
  data : list Q;
  timestamps : list Q;
  attack_points : list Q;
  last_update : Q
}.

Definition __init__ : PlotCanvas :=
  {| data := []; timestamps := []; attack_points := []; last_update := 0 |}.

(** [deque.append] with [maxlen]: a full deque drops its oldest entry. *)
Definition deque_append {A : Type} (maxlen : nat) (x : A) (d : list A)
    : list A :=
  drop (length (d ++ [x]) - maxlen) (d ++ [x]).

(** [max(0, x)]. *)
Definition max0 (x : Q) : Q := if Qle_bool x 0 then 0%Q else x.

(** Truth value of a dictionary entry. *)
Definition truth (v : Value) : bool :=
  match v with
  | VBool b => b
  | VInt z => negb (z =? 0)%Z
  | VStr s => negb (String.eqb s "")
  | VFloat q => negb (Qeq_bool q 0)
  end.

(** How a call ends: it returns, or [packet["attack"]] raises. *)
Inductive Outcome : Type := Returned | KeyError (key : string).

(** [PlotCanvas.update_plot], as far as the buffers go (the drawing calls
    read them and write none); [now] is the value of [time.time()]. *)
Definition update_plot (now : Q) (packet : gmap string Value)
    (self : PlotCanvas) : PlotCanvas * Outcome :=
  if negb (Qle_bool 0.2 (now - last_update self)) then (self, Returned)
  else
    let data := deque_append 100 10%Q (data self) in
    let data :=
      if (1 <? length data)%nat
      then alter (fun v => max0 (v * 0.7)) (length data - 2) data
      else data in
    let timestamps := deque_append 100 now (timestamps self) in
    match packet !! "attack" with
    | None =>
        ({| data := data; timestamps := timestamps;
            attack_points := attack_points self; last_update := now |},
         KeyError "attack")
    | Some v =>
        ({| data := data; timestamps := timestamps;
            attack_points :=
              if truth v then attack_points self ++ [now]
              else attack_points self;
            last_update := now |},
         Returned)
    end.

(** Successive calls of [update_plot] with the packets of the simulator;
    a call that raises is followed by the next one all the same. *)
Definition update_plots (calls : list (Q * gmap string Value))
    (self : PlotCanvas) : PlotCanvas :=
  fold_left (fun c call => fst (update_plot (fst call) (snd call) c))
    calls self.

End PlotCanvas.

(** ** Counting what was written and emitted *)

Module Trace.
Import Detector.

(** The lines of the first f-string of [process_packet]. *)
Definition is_detection (l : Line) : bool :=
  match l with DeauthDetected _ _ => true | _ => false end.

(** The lines of its second f-string. *)
Definition is_alert (l : Line) : bool :=
  match l with ThresholdExceeded _ _ => true | _ => false end.

(** The detection line of a frame. *)
Definition detection_of (ev : Event) : Line :=
  DeauthDetected (addr2 (snd ev)) (fst ev).

Definition is_attack_detected (s : Simulator.Signal) : bool :=
  match s with Simulator.attack_detected _ _ _ _ => true | _ => false end.

Definition is_packet_received (s : Simulator.Signal) : bool :=
  match s with Simulator.packet_received _ => true | _ => false end.

(** The fields of the simulated detector that the traffic generator only
    reads. *)
Definition settings (s : Simulator.DeauthDetector)
    : bool * string * Q * Q * Z :=
  (Simulator.running s, Simulator.interface s, Simulator.normal_rate s,
   Simulator.start_time s, Simulator.attack_cooldown s).

(** The entries of a packet dictionary that mark it as part of an attack of
    the given type. *)
Definition marked_as_attack (a : Simulator.AttackType) (s : Simulator.Signal)
    : Prop :=
  match s with
  | Simulator.packet_received p =>
      p !! "attack" = Some (Simulator.VBool true)
      /\ p !! "type" = Some (Simulator.VStr "ALERT")
      /\ match a with
         | Simulator.broadcast_attack =>
             p !! "info" = Some (Simulator.VStr "Broadcast")
         | Simulator.targeted_attack =>
             p !! "info" = Some (Simulator.VStr "Unicast")
         | Simulator.flood_attack => True
         end
  | _ => True
  end.

End Trace.

(** ** The scenarios of the specification *)

Module Scenario.
Import Detector.

(** Threshold 10, window 5 s. *)
Definition engine_A : DeAuthDetector := __init__ "wlan0mon" 10 5 None [].

(** Nine frames at 0, 0.1, ..., 0.8 from nine distinct addresses. *)
Definition first_nine : list Event :=
  [(0, deauth "02:00:00:00:00:01"); (0.1, deauth "02:00:00:00:00:02");
   (0.2, deauth "02:00:00:00:00:03"); (0.3, deauth "02:00:00:00:00:04");
   (0.4, deauth "02:00:00:00:00:05"); (0.5, deauth "02:00:00:00:00:06");
   (0.6, deauth "02:00:00:00:00:07"); (0.7, deauth "02:00:00:00:00:08");
   (0.8, deauth "02:00:00:00:00:09")]%Q.

Definition tenth : Event := (0.9%Q, deauth "02:00:00:00:00:0a").
Definition late : Event := (6.0%Q, deauth "02:00:00:00:00:0b").



End Scenario.

Import Detector.

(** ** Basic facts about one call *)

Section OneCall.
Variables (now : Q) (pkt : Packet) (self : DeAuthDetector).
Hypothesis Hdeauth : haslayer_Dot11Deauth pkt = true.

Lemma process_packet_times :
  packet_times (process_packet now pkt self)
  = within_window now (time_window self) (packet_times self ++ [now]).
Proof. unfold process_packet. now rewrite Hdeauth. Qed.

Lemma process_packet_total :
  total_deauth_packets (process_packet now pkt self)
  = (total_deauth_packets self + 1)%Z.
Proof. unfold process_packet. now rewrite Hdeauth. Qed.

Lemma process_packet_macs :
  suspicious_macs (process_packet now pkt self)
  = suspicious_macs self ∪ {[ addr2 pkt ]}.
Proof. unfold process_packet. now rewrite Hdeauth. Qed.

Lemma process_packet_alerts :
  alerts_triggered (process_packet now pkt self)
  = if (Z.of_nat (length (packet_times (process_packet now pkt self)))
        >=? threshold self)%Z
    then (alerts_triggered self + 1)%Z else alerts_triggered self.
Proof. unfold process_packet. now rewrite Hdeauth. Qed.

Lemma process_packet_console :
  console_output (process_packet now pkt self)
  = console_output self ++ DeauthDetected (addr2 pkt) now ::
    if (Z.of_nat (length (packet_times (process_packet now pkt self)))
        >=? threshold self)%Z
    then [ThresholdExceeded
            (length (packet_times (process_packet now pkt self)))
            (time_window self)]
    else [].
Proof.
  unfold process_packet. rewrite Hdeauth. simpl.
  destruct (_ >=? _)%Z; [now rewrite <- app_assoc | reflexivity].
Qed.
End OneCall.


Lemma process_packet_ignored now pkt self :
  haslayer_Dot11Deauth pkt = false -> process_packet now pkt self = self.
Proof. unfold process_packet. now intros ->. Qed.

Lemma process_packets_snoc evs ev self :
  process_packets (evs ++ [ev]) self
  = process_packet (fst ev) (snd ev) (process_packets evs self).
Proof. unfold process_packets. now rewrite fold_left_app. Qed.


(** ** The alert decision *)



(** ** Counting events *)

Lemma process_packets_total evs self :
  total_deauth_packets (process_packets evs self)
  = (total_deauth_packets self
     + Z.of_nat (length (List.filter is_deauth evs)))%Z.
Proof.
  induction evs as [|ev evs IH] using rev_ind; [simpl; lia|].
  rewrite process_packets_snoc, List.filter_app, length_app. simpl.
  unfold is_deauth at 2.
  destruct (haslayer_Dot11Deauth (snd ev)) eqn:Hd.
  - rewrite process_packet_total by exact Hd. simpl. lia.
  - rewrite process_packet_ignored by exact Hd. simpl. lia.
Qed.

(** C6: after [N] deauthentication frames have been handled by a fresh
    detector, [total_deauth_packets] is [N], whatever the threshold and the
    alerts raised on the way; each such call adds exactly one to the counter
    and no call ever lowers it. *)
Theorem total_counts_every_event
    (N : nat) (evs : list Event) (iface : string) (th : Z) (w : Q)
    (lp : option string) (con : list Line) :
  length evs = N ->
  Forall (fun ev => is_deauth ev = true) evs ->
  total_deauth_packets (process_packets evs (__init__ iface th w lp con))
  = Z.of_nat N
  /\ (forall now pkt self,
        haslayer_Dot11Deauth pkt = true ->
        total_deauth_packets (process_packet now pkt self)
        = (total_deauth_packets self + 1)%Z)
  /\ (forall now pkt self,
        (total_deauth_packets self
         <= total_deauth_packets (process_packet now pkt self))%Z).
Proof.
  intros HN Hall. split; [|split].
  - rewrite process_packets_total. simpl.
    replace (List.filter is_deauth evs) with evs; [now rewrite HN|].
    clear HN. induction Hall as [|ev evs Hev _ IH]; [reflexivity|].
    simpl. rewrite Hev. now f_equal.
  - intros now pkt self Hd. now apply process_packet_total.
  - intros now pkt self. destruct (haslayer_Dot11Deauth pkt) eqn:Hd.
    + rewrite process_packet_total by exact Hd. lia.
    + rewrite process_packet_ignored by exact Hd. lia.
Qed.

Lemma total_counts_every_event_witness :
  let evs : list Event :=
    [(0, deauth "02:00:00:00:00:01"); (1, deauth "02:00:00:00:00:02");
     (1, deauth "02:00:00:00:00:01")]%Q in
  length evs = 3%nat
  /\ Forall (fun ev => is_deauth ev = true) evs
  /\ total_deauth_packets
       (process_packets evs (__init__ "wlan0mon" 2 5 None [])) = 3%Z.
Proof.
  split; [reflexivity|]. split; [repeat constructor|].
  refine (proj1 (total_counts_every_event 3
           [(0, deauth "02:00:00:00:00:01"); (1, deauth "02:00:00:00:00:02");
            (1, deauth "02:00:00:00:00:01")]%Q
           "wlan0mon" 2 5 None [] eq_refl _)).
  repeat constructor.
Defined.

(** ** The sliding window *)

Lemma within_window_In ts w times t :
  In t (within_window ts w times) <-> In t times /\ (ts - t <= w)%Q.
Proof.
  unfold within_window. rewrite filter_In, Qle_bool_iff. reflexivity.
Qed.






Lemma packet_times_bounded evs self b :
  Forall (fun ev : Event => (fst ev <= b)%Q) evs ->
  Forall (fun t => (t <= b)%Q) (packet_times self) ->
  Forall (fun t => (t <= b)%Q) (packet_times (process_packets evs self)).
Proof.
  revert self. induction evs as [|[ts pkt] evs IH]; intros self Hevs Hself.
  - exact Hself.
  - apply Forall_cons in Hevs as [Hts Hevs]. simpl in Hts.
    apply IH; [exact Hevs|]. simpl.
    destruct (haslayer_Dot11Deauth pkt) eqn:Hd.
    + rewrite process_packet_times by exact Hd.
      rewrite Forall_forall in Hself |- *. intros t Ht.
      apply list_elem_of_In, within_window_In in Ht as [Ht _].
      apply in_app_or in Ht as [Ht|[<-|[]]]; [|exact Hts].
      apply Hself. now apply list_elem_of_In.
    + now rewrite process_packet_ignored by exact Hd.
Qed.




(** ** Alerts while the window stays full *)




(** ** The set of transmitter addresses *)

Lemma process_packets_macs evs self :
  suspicious_macs (process_packets evs self)
  = suspicious_macs self
    ∪ list_to_set (map (fun ev : Event => addr2 (snd ev))
                     (List.filter is_deauth evs)).
Proof.
  induction evs as [|ev evs IH] using rev_ind.
  - simpl. now rewrite union_empty_r_L.
  - rewrite process_packets_snoc, List.filter_app, map_app. simpl.
    unfold is_deauth at 2. destruct (haslayer_Dot11Deauth (snd ev)) eqn:Hd.
    + rewrite process_packet_macs by exact Hd. rewrite IH. simpl.
      rewrite list_to_set_snoc_L. now rewrite (assoc_L (∪)).
    + rewrite process_packet_ignored by exact Hd. rewrite IH. simpl.
      now rewrite app_nil_r.
Qed.

Lemma size_list_to_set_remove_dups (l : list string) :
  size (list_to_set l : gset string) = length (remove_dups l).
Proof.
  rewrite <- (size_list_to_set (C := gset string) (remove_dups l))
    by apply NoDup_remove_dups.
  f_equal. apply set_eq. intros x.
  rewrite !elem_of_list_to_set. now rewrite elem_of_remove_dups.
Qed.

(** C7: after a sequence of frames handled by a fresh detector, the size of
    [suspicious_macs] is the number of distinct transmitter addresses among
    the deauthentication frames of the sequence; repeated addresses count
    once and the order of arrival does not matter. *)
Theorem suspicious_macs_counts_distinct
    (iface : string) (th : Z) (w : Q) (lp : option string) (con : list Line)
    (evs evs' : list Event) :
  evs ≡ₚ evs' ->
  let addresses (l : list Event) :=
    map (fun ev : Event => addr2 (snd ev)) (List.filter is_deauth l) in
  size (suspicious_macs (process_packets evs (__init__ iface th w lp con)))
  = length (remove_dups (addresses evs))
  /\ size (suspicious_macs (process_packets evs' (__init__ iface th w lp con)))
     = size (suspicious_macs
               (process_packets evs (__init__ iface th w lp con))).
Proof.
  intros Hperm addresses.
  assert (Hsize : forall l,
            size (suspicious_macs
                    (process_packets l (__init__ iface th w lp con)))
            = length (remove_dups (addresses l))).
  { intros l. rewrite process_packets_macs. simpl.
    rewrite union_empty_l_L. apply size_list_to_set_remove_dups. }
  split; [apply Hsize|].
  rewrite process_packets_macs, process_packets_macs. simpl.
  rewrite !union_empty_l_L. f_equal.
  apply list_to_set_perm_L, fmap_Permutation.
  symmetry. clear -Hperm.
  induction Hperm as [|x l l' _ IH|x y l|l l' l'' _ IH1 _ IH2]; simpl.
  - constructor.
  - destruct (is_deauth x); [constructor; exact IH|exact IH].
  - destruct (is_deauth x), (is_deauth y);
      try reflexivity; apply Permutation_swap.
  - transitivity (List.filter is_deauth l'); [exact IH1|exact IH2].
Qed.

Lemma suspicious_macs_counts_distinct_witness :
  let evs : list Event :=
    [(0, deauth "02:00:00:00:00:01"); (1, deauth "02:00:00:00:00:02");
     (2, deauth "02:00:00:00:00:01")]%Q in
  let evs' : list Event :=
    [(1, deauth "02:00:00:00:00:02"); (0, deauth "02:00:00:00:00:01");
     (2, deauth "02:00:00:00:00:01")]%Q in
  evs ≡ₚ evs'
  /\ size (suspicious_macs
             (process_packets evs (__init__ "wlan0mon" 10 5 None []))) = 2%nat.
Proof.
  assert (Hp : ([(0, deauth "02:00:00:00:00:01");
                 (1, deauth "02:00:00:00:00:02");
                 (2, deauth "02:00:00:00:00:01")]%Q : list Event)
               ≡ₚ [(1, deauth "02:00:00:00:00:02");
                   (0, deauth "02:00:00:00:00:01");
                   (2, deauth "02:00:00:00:00:01")]%Q).
  { apply Permutation_swap. }
  split; [exact Hp|].
  exact (proj1 (suspicious_macs_counts_distinct "wlan0mon" 10 5 None [] _ _ Hp)).
Defined.

(** ** Scenario: threshold 10, window of 5 seconds *)

(** C9: with threshold 10 and a window of 5 s, nine frames at 0, 0.1, ...,
    0.8 from nine distinct addresses raise no alert at any of the nine calls;
    a tenth frame at 0.9 raises an alert that reports 10 frames; a further
    frame at 6.0 leaves only the timestamp 6.0 in the window and raises no
    alert. *)
Theorem scenario_threshold_10_window_5 :
  let d9 := process_packets Scenario.first_nine Scenario.engine_A in
  let d10 := process_packet (fst Scenario.tenth) (snd Scenario.tenth) d9 in
  let d11 := process_packet (fst Scenario.late) (snd Scenario.late) d10 in
  Forall (fun k => alerts_triggered
                     (process_packets (take k Scenario.first_nine)
                        Scenario.engine_A) = 0%Z)
    (seq 0 10)
  /\ console_output d9
     = map (fun ev : Event => DeauthDetected (addr2 (snd ev)) (fst ev))
         Scenario.first_nine
  /\ length (packet_times d10) = 10%nat
  /\ console_output d10
     = console_output d9
       ++ [DeauthDetected "02:00:00:00:00:0a" 0.9; ThresholdExceeded 10 5]
  /\ alerts_triggered d10 = 1%Z
  /\ packet_times d11 = [6.0%Q]
  /\ console_output d11
     = console_output d10 ++ [DeauthDetected "02:00:00:00:00:0b" 6.0]
  /\ alerts_triggered d11 = 1%Z.
Proof.
  intros d9 d10 d11.
  split; [repeat constructor|].
  repeat split; vm_compute; reflexivity.
Qed.

(** ** Construction *)

(** C3 (as the code has it): the constructor validates nothing.  For every
    threshold and every window, non-positive ones included, it yields a
    detector that holds the configuration as given, with an empty window, an
    empty set of addresses, both counters at zero and [running] set. *)
Theorem init_accepts_every_configuration
    (iface : string) (th : Z) (w : Q) (lp : option string) (con : list Line) :
  let d := __init__ iface th w lp con in
  threshold d = th
  /\ time_window d = w
  /\ packet_times d = []
  /\ suspicious_macs d = ∅
  /\ total_deauth_packets d = 0%Z
  /\ alerts_triggered d = 0%Z
  /\ running d = true.
Proof. repeat split. Qed.

(** C3 fails as stated: with threshold 0 the constructor returns a detector,
    and that detector works: it raises an alert on its first frame. *)
Lemma init_with_zero_threshold_yields_engine :
  let d := __init__ "wlan0mon" 0 5 None [] in
  threshold d = 0%Z
  /\ running d = true
  /\ console_output (process_packet 1 (deauth "02:00:00:00:00:01") d)
     = [DeauthDetected "02:00:00:00:00:01" 1; ThresholdExceeded 1 5].
Proof. repeat split. Qed.

(** ** A cleared [running] flag *)





(** ** Statistics of the simulated detector *)

Section SimulatorStatistics.
Import Simulator.






End SimulatorStatistics.

(** ** Further properties of the detector *)

Import Trace.

Lemma process_packets_cons ev evs self :
  process_packets (ev :: evs) self
  = process_packets evs (process_packet (fst ev) (snd ev) self).
Proof. reflexivity. Qed.

Lemma process_packets_app evs evs' self :
  process_packets (evs ++ evs') self
  = process_packets evs' (process_packets evs self).
Proof. unfold process_packets. apply fold_left_app. Qed.

(** X1: frames without a deauthentication layer leave no trace: handling a
    stream of frames yields the same detector as handling its
    deauthentication frames alone. *)
Theorem other_frames_leave_no_trace (evs : list Event) (self : DeAuthDetector) :
  process_packets evs self = process_packets (List.filter is_deauth evs) self.
Proof.
  revert self. induction evs as [|ev evs IH]; intros self; [reflexivity|].
  simpl List.filter. destruct (is_deauth ev) eqn:Hd.
  - rewrite !process_packets_cons. apply IH.
  - rewrite process_packets_cons, process_packet_ignored by exact Hd. apply IH.
Qed.

Lemma process_packet_window_length now pkt self :
  haslayer_Dot11Deauth pkt = true ->
  (length (packet_times (process_packet now pkt self))
   <= S (length (packet_times self)))%nat.
Proof.
  intros Hd. rewrite process_packet_times by exact Hd.
  unfold within_window.
  etransitivity; [apply List.filter_length_le|].
  rewrite length_app. simpl. lia.
Qed.

(** X2: from a fresh detector, whatever the frames, the counters stay
    ordered: [0 <= alerts_triggered <= total_deauth_packets], and the window
    never holds more timestamps than frames were counted. *)
Theorem alerts_and_window_bounded_by_total
    (iface : string) (th : Z) (w : Q) (lp : option string) (con : list Line)
    (evs : list Event) :
  let d := process_packets evs (__init__ iface th w lp con) in
  (0 <= alerts_triggered d <= total_deauth_packets d)%Z
  /\ (Z.of_nat (length (packet_times d)) <= total_deauth_packets d)%Z.
Proof.
  induction evs as [|ev evs IH] using rev_ind; [simpl; lia|].
  simpl in IH |- *. rewrite process_packets_snoc.
  set (d := process_packets evs (__init__ iface th w lp con)) in *.
  destruct (haslayer_Dot11Deauth (snd ev)) eqn:Hd.
  - pose proof (process_packet_window_length (fst ev) (snd ev) d Hd).
    rewrite process_packet_alerts, process_packet_total by exact Hd.
    destruct (_ >=? _)%Z; lia.
  - rewrite process_packet_ignored by exact Hd. exact IH.
Qed.

(** X3: the console gains exactly one detection line per frame counted and
    one alert line per alert counted, appended after what it held: the
    lines added by a run are as many as the two counters grew together. *)
Theorem console_accounts_for_counters
    (evs : list Event) (self : DeAuthDetector) :
  let d := process_packets evs self in
  exists added : list Line,
    console_output d = console_output self ++ added
    /\ Z.of_nat (length (List.filter is_detection added))
       = (total_deauth_packets d - total_deauth_packets self)%Z
    /\ Z.of_nat (length (List.filter is_alert added))
       = (alerts_triggered d - alerts_triggered self)%Z
    /\ Forall (fun l => is_detection l = true \/ is_alert l = true) added.
Proof.
  induction evs as [|ev evs IH] using rev_ind; simpl.
  - exists []. rewrite app_nil_r. simpl. repeat split; try lia. constructor.
  - simpl in IH. rewrite process_packets_snoc.
    set (d := process_packets evs self) in *.
    destruct IH as (added & Hc & Hdet & Hal & Hall).
    destruct (haslayer_Dot11Deauth (snd ev)) eqn:Hd.
    + rewrite process_packet_console, process_packet_alerts,
        process_packet_total by exact Hd.
      destruct (_ >=? _)%Z.
      * eexists (added ++ [_; _]). rewrite Hc, <- app_assoc.
        split; [reflexivity|]. rewrite !List.filter_app, !length_app. simpl.
        repeat split; try lia.
        apply Forall_app. split; [exact Hall|].
        constructor; [simpl; auto|constructor; [simpl; auto|constructor]].
      * eexists (added ++ [_]). rewrite Hc, <- app_assoc.
        split; [reflexivity|]. rewrite !List.filter_app, !length_app. simpl.
        repeat split; try lia.
        apply Forall_app. split; [exact Hall|].
        constructor; [simpl; auto|constructor].
    + rewrite process_packet_ignored by exact Hd.
      exists added. repeat split; assumption.
Qed.

Lemma process_packet_log_path now pkt self :
  log_path (process_packet now pkt self) = log_path self.
Proof. unfold process_packet. destruct (haslayer_Dot11Deauth pkt); auto. Qed.

(** X4: the log file receives one detection line per deauthentication
    frame, in the order of arrival, and never an alert line; with no path,
    or an empty one, nothing is written. *)
Theorem log_file_gets_detections_only
    (iface : string) (th : Z) (w : Q) (lp : option string) (con : list Line)
    (evs : list Event) :
  log_written (process_packets evs (__init__ iface th w lp con))
  = if truthy lp then map detection_of (List.filter is_deauth evs) else [].
Proof.
  assert (Hlp : forall l, log_path (process_packets l
                                      (__init__ iface th w lp con)) = lp).
  { induction l as [|ev l IH] using rev_ind; [reflexivity|].
    now rewrite process_packets_snoc, process_packet_log_path. }
  induction evs as [|ev evs IH] using rev_ind.
  - simpl. now destruct (truthy lp).
  - rewrite process_packets_snoc, List.filter_app, map_app. simpl.
    unfold is_deauth at 2. destruct (haslayer_Dot11Deauth (snd ev)) eqn:Hd.
    + unfold process_packet at 1. rewrite Hd. simpl.
      rewrite Hlp, IH. destruct (truthy lp); reflexivity.
    + rewrite process_packet_ignored by exact Hd. rewrite IH. simpl.
      now rewrite app_nil_r.
Qed.










(** ** The traffic generator *)

Section SimulatorTraffic.
Import Simulator.

Lemma log_packet_history now src dst reason attack self :
  packet_history (log_packet now src dst reason attack self)
  = drop (length (packet_history self ++ [packet_dict now src dst reason attack])
          - 1000)
      (packet_history self ++ [packet_dict now src dst reason attack]).
Proof. reflexivity. Qed.

(** X8: the packet history is a queue of at most 1000 entries.  A logged
    packet becomes its last entry; below 1000 entries nothing is dropped, at
    1000 the oldest entry is dropped. *)
Theorem packet_history_keeps_last_1000
    (now : Q) (src dst : string) (reason : Z) (attack : bool)
    (self : DeauthDetector) :
  let packet := packet_dict now src dst reason attack in
  let history' := packet_history (log_packet now src dst reason attack self) in
  length history' = Nat.min 1000 (S (length (packet_history self)))
  /\ last history' = Some packet
  /\ (length (packet_history self) < 1000 ->
      history' = packet_history self ++ [packet])
  /\ (length (packet_history self) = 1000 ->
      history' = drop 1 (packet_history self) ++ [packet]).
Proof.
  intros packet history'. subst history'. rewrite log_packet_history.
  fold packet. set (h := packet_history self).
  rewrite length_app. cbn [length]. split; [|split; [|split]].
  - rewrite length_drop, length_app. cbn [length]. lia.
  - destruct (decide (length h + 1 - 1000 <= length h)) as [Hle|Hgt].
    + rewrite drop_app_le by exact Hle. apply last_snoc.
    + lia.
  - intros Hlt. replace (length h + 1 - 1000) with 0 by lia. reflexivity.
  - intros Heq. replace (length h + 1 - 1000) with 1 by lia.
    apply drop_app_le. lia.
Qed.

Lemma upper_ascii_not_f c : upper_ascii c <> Ascii.ascii_of_nat 102.
Proof.
  destruct c as [[] [] [] [] [] [] [] []]; vm_compute; discriminate.
Qed.

Lemma upper_not_broadcast s : upper s <> "ff:ff:ff:ff:ff:ff".
Proof.
  destruct s as [|c s]; simpl; [discriminate|].
  intros Heq. injection Heq as Hc _. exact (upper_ascii_not_f c Hc).
Qed.

(** X9: [random_mac] returns upper-case text, so it never returns the
    broadcast address as the code writes it; every packet whose destination
    comes from [random_mac] is logged as Unicast, even when all six bytes
    are 255. *)
Theorem random_mac_is_never_broadcast
    (byte : nat -> Z) (now : Q) (src : string) (reason : Z) (attack : bool) :
  random_mac byte <> "ff:ff:ff:ff:ff:ff"
  /\ packet_dict now src (random_mac byte) reason attack !! "info"
     = Some (VStr "Unicast")
  /\ random_mac (fun _ => 255%Z) = "FF:FF:FF:FF:FF:FF".
Proof.
  assert (Hne : random_mac byte <> "ff:ff:ff:ff:ff:ff")
    by apply upper_not_broadcast.
  split; [exact Hne|]. split; [|reflexivity].
  unfold packet_dict.
  destruct (String.eqb_spec (random_mac byte) "ff:ff:ff:ff:ff:ff") as [E|_];
    [contradiction|].
  by simplify_map_eq.
Qed.

Lemma string_length_app (s1 s2 : string) :
  String.length (s1 +:+ s2) = String.length s1 + String.length s2.
Proof. induction s1 as [|c s1 IH]; simpl; [reflexivity|now rewrite IH]. Qed.

Lemma upper_length s : String.length (upper s) = String.length s.
Proof. induction s as [|c s IH]; simpl; [reflexivity|now rewrite IH]. Qed.

Lemma format_02x_byte n :
  (0 <= n <= 255)%Z -> String.length (format_02x n) = 2.
Proof.
  intros Hn.
  assert (Hall : forallb
                   (fun k => String.length (format_02x (Z.of_nat k)) =? 2)
                   (seq 0 256) = true) by (vm_compute; reflexivity).
  rewrite forallb_forall in Hall.
  specialize (Hall (Z.to_nat n)).
  rewrite Z2Nat.id in Hall by lia.
  apply Nat.eqb_eq, Hall, in_seq. lia.
Qed.

(** X10: when the six values drawn are bytes, [random_mac] returns an
    address of 17 characters. *)
Theorem random_mac_has_17_characters (byte : nat -> Z) :
  (forall i, i < 6 -> (0 <= byte i <= 255)%Z) ->
  String.length (random_mac byte) = 17.
Proof.
  intros Hb. unfold random_mac. rewrite upper_length. simpl.
  rewrite !string_length_app. simpl.
  rewrite !format_02x_byte by (apply Hb; lia). reflexivity.
Qed.

Lemma random_mac_has_17_characters_witness :
  (forall i, i < 6 -> (0 <= (fun _ : nat => 171%Z) i <= 255)%Z)
  /\ String.length (random_mac (fun _ => 171%Z)) = 17.
Proof.
  assert (Hb : forall i, i < 6 -> (0 <= (fun _ : nat => 171%Z) i <= 255)%Z)
    by (intros; simpl; lia).
  split; [exact Hb|].
  exact (random_mac_has_17_characters (fun _ => 171%Z) Hb).
Defined.

Lemma int_of_float_three_tenths p :
  (1 <= p)%Z ->
  (0 <= int_of_float (inject_Z p * 0.3) < p)%Z.
Proof.
  intros Hp.
  assert (Hq : (inject_Z 1 <= inject_Z p)%Q)
    by (rewrite <- (Zle_Qle 1 p); exact Hp).
  change (inject_Z 1) with 1%Q in Hq.
  unfold int_of_float.
  assert (Hnn : Qle_bool 0 (inject_Z p * 0.3) = true)
    by (apply Qle_bool_iff; lra).
  rewrite Hnn. split.
  - change 0%Z with (Qfloor 0). apply Qfloor_resp_le. lra.
  - pose proof (Qfloor_le (inject_Z p * 0.3)) as Hle.
    rewrite Zlt_Qlt. lra.
Qed.

Lemma log_packet_history_length now src dst reason attack self :
  length (packet_history (log_packet now src dst reason attack self))
  = Nat.min 1000 (S (length (packet_history self))).
Proof.
  rewrite log_packet_history, length_drop, length_app. cbn [length]. lia.
Qed.

Lemma attack_packet_state a p i d s :
  let s' := fst (attack_packet a p i d s) in
  stats s'
  = {| total := (total (stats s) + 1)%Z;
       deauth := (deauth (stats s) + 1)%Z;
       alerts := alerts (stats s);
       broadcast :=
         match a with
         | broadcast_attack => (broadcast (stats s) + 1)%Z
         | _ => broadcast (stats s)
         end |}
  /\ attack_active s' = attack_active s
  /\ last_attack_time s' = last_attack_time s
  /\ settings s' = settings s
  /\ length (packet_history s') = Nat.min 1000 (S (length (packet_history s))).
Proof.
  unfold attack_packet.
  destruct (_ =? _)%Z; cbn [fst];
    (split; [|split; [|split; [|split]]]);
    try (destruct a; reflexivity);
    rewrite log_packet_history_length; destruct a; reflexivity.
Qed.

Lemma attack_packet_signals a p i d s :
  let k := int_of_float (inject_Z p * 0.3) in
  let out := snd (attack_packet a p i d s) in
  length (List.filter is_packet_received out) = 1
  /\ length (List.filter is_attack_detected out)
     = (if (Z.of_nat i =? k)%Z then 1 else 0)
  /\ Forall (marked_as_attack a) out.
Proof.
  unfold attack_packet.
  assert (Hmark : forall dst,
            match a with
            | broadcast_attack => dst = "ff:ff:ff:ff:ff:ff"
            | targeted_attack => dst <> "ff:ff:ff:ff:ff:ff"
            | flood_attack => True
            end ->
            marked_as_attack a
              (packet_received
                 (packet_dict (draw_clock d) (random_mac (draw_mac1 d)) dst
                    (draw_reason d) true))).
  { intros dst Hdst. unfold marked_as_attack, packet_dict.
    split; [by simplify_map_eq|]. split; [by simplify_map_eq|].
    destruct a; [subst dst; by simplify_map_eq| |exact I].
    destruct (String.eqb_spec dst "ff:ff:ff:ff:ff:ff") as [E|_];
      [contradiction|]. by simplify_map_eq. }
  destruct (_ =? _)%Z; cbn [snd List.filter is_packet_received
                            is_attack_detected length];
    (split; [reflexivity|split; [reflexivity|]]).
  - constructor; [|constructor; [exact I|constructor]].
    apply Hmark. destruct a; [reflexivity|apply upper_not_broadcast|exact I].
  - constructor; [|constructor].
    apply Hmark. destruct a; [reflexivity|apply upper_not_broadcast|exact I].
Qed.

Lemma attack_loop_invariant a p draw s0 n :
  let start :=
    (set_attack_active true s0,
     [status_update "warning"
        ("Detected potential " +:+ attack_name a +:+ " attack pattern")
        "detector"]) in
  let r :=
    fold_left
      (fun (acc : DeauthDetector * list Signal) i =>
         let '(s, out) := attack_packet a p i (draw i) (fst acc)
         in (s, snd acc ++ out))
      (seq 0 n) start in
  let k := int_of_float (inject_Z p * 0.3) in
  stats (fst r)
  = {| total := (total (stats s0) + Z.of_nat n)%Z;
       deauth := (deauth (stats s0) + Z.of_nat n)%Z;
       alerts := alerts (stats s0);
       broadcast :=
         match a with
         | broadcast_attack => (broadcast (stats s0) + Z.of_nat n)%Z
         | _ => broadcast (stats s0)
         end |}
  /\ attack_active (fst r) = true
  /\ last_attack_time (fst r) = last_attack_time s0
  /\ settings (fst r) = settings s0
  /\ (length (packet_history s0) <= 1000 ->
      length (packet_history (fst r)) <= 1000)
  /\ length (List.filter is_packet_received (snd r)) = n
  /\ length (List.filter is_attack_detected (snd r))
     = (if ((0 <=? k) && (k <? Z.of_nat n))%Z then 1 else 0)
  /\ Forall (marked_as_attack a) (snd r)
  /\ head (snd r)
     = Some (status_update "warning"
               ("Detected potential " +:+ attack_name a +:+ " attack pattern")
               "detector").
Proof.
  intros start r k. subst r. induction n as [|n IH].
  - cbn [seq fold_left start fst snd List.filter length].
    destruct s0 as [? ? ? ? ? [? ? ? ?] ? ? ?]; cbn.
    change (Z.of_nat 0) with 0%Z.
    assert (Hk : ((0 <=? k) && (k <? 0))%Z = false)
      by (destruct (Z.leb_spec 0 k), (Z.ltb_spec k 0); cbn; lia).
    rewrite Hk.
    repeat split; try (f_equal; lia); try (destruct a; f_equal; lia).
    constructor; [exact I|constructor].
  - rewrite seq_S, fold_left_app. cbn [fold_left Nat.add].
    set (r := fold_left _ (seq 0 n) start) in *.
    destruct IH as (Hst & Hact & Hlast & Hset & Hlen & Hrec & Hdet & Hmark & Hhd).
    pose proof (attack_packet_state a p n (draw n) (fst r)) as Hs.
    pose proof (attack_packet_signals a p n (draw n) (fst r)) as Hg.
    destruct (attack_packet a p n (draw n) (fst r)) as [s' out].
    cbn [fst snd] in *.
    destruct Hs as (Hst' & Hact' & Hlast' & Hset' & Hlen').
    destruct Hg as (Hrec' & Hdet' & Hmark').
    rewrite !List.filter_app, !length_app, Hrec, Hrec', Hdet, Hdet'.
    rewrite Hst', Hst, Hact', Hlast', Hset', Hlen'.
    repeat split; try assumption.
    + destruct a; cbn; f_equal; lia.
    + lia.
    + lia.
    + fold k. destruct (Z.eqb_spec (Z.of_nat n) k) as [E|E];
        destruct (Z.leb_spec 0 k), (Z.ltb_spec k (Z.of_nat n)),
          (Z.ltb_spec k (Z.of_nat (S n))); cbn; lia.
    + apply Forall_app. now split.
    + destruct (snd r); [discriminate|exact Hhd].
Qed.

Lemma simulate_attack_unfold a p draw self :
  simulate_attack a p draw self
  = let r :=
      fold_left
        (fun (acc : DeauthDetector * list Signal) i =>
           let '(s, out) := attack_packet a p i (draw i) (fst acc)
           in (s, snd acc ++ out))
        (seq 0 (Z.to_nat p))
        (set_attack_active true self,
         [status_update "warning"
            ("Detected potential " +:+ attack_name a +:+ " attack pattern")
            "detector"]) in
    (count_alert (set_attack_active false (fst r)),
     snd r ++ [status_update "info" "Attack simulation completed" "detector"]).
Proof.
  unfold simulate_attack. destruct (fold_left _ _ _) as [s out]. reflexivity.
Qed.

Lemma simulate_attack_state a p draw self :
  let self' := fst (simulate_attack a p draw self) in
  stats self'
  = {| total := (total (stats self) + Z.max 0 p)%Z;
       deauth := (deauth (stats self) + Z.max 0 p)%Z;
       alerts := (alerts (stats self) + 1)%Z;
       broadcast :=
         match a with
         | broadcast_attack => (broadcast (stats self) + Z.max 0 p)%Z
         | _ => broadcast (stats self)
         end |}
  /\ attack_active self' = false
  /\ last_attack_time self' = last_attack_time self
  /\ settings self' = settings self
  /\ (length (packet_history self) <= 1000 ->
      length (packet_history self') <= 1000).
Proof.
  rewrite simulate_attack_unfold. cbn zeta. cbn [fst].
  destruct (attack_loop_invariant a p draw self (Z.to_nat p))
    as (Hst & _ & Hlast & Hset & Hlen & _).
  cbn zeta in Hst, Hlast, Hset, Hlen.
  set (r := fold_left _ _ _) in *.
  assert (Hmax : Z.of_nat (Z.to_nat p) = Z.max 0 p) by lia.
  rewrite Hmax in Hst.
  split; [|split; [reflexivity|split; [exact Hlast|split; [exact Hset|exact Hlen]]]].
  unfold count_alert, set_attack_active. cbn [stats]. rewrite Hst.
  reflexivity.
Qed.

(** X11: a simulated attack of [packets] packets adds [packets] to the total
    and deauth counters and exactly 1 to the alerts counter, whatever the
    number of packets; the broadcast counter grows, by [packets], only for
    an attack of type broadcast.  When it returns no attack is active, and
    the settings of the detector and the time of the last attack are as
    before. *)
Theorem simulate_attack_accounting
    (a : AttackType) (packets : Z) (draw : nat -> Draw)
    (self : DeauthDetector) :
  let self' := fst (simulate_attack a packets draw self) in
  total (stats self') = (total (stats self) + Z.max 0 packets)%Z
  /\ deauth (stats self') = (deauth (stats self) + Z.max 0 packets)%Z
  /\ alerts (stats self') = (alerts (stats self) + 1)%Z
  /\ broadcast (stats self')
     = (broadcast (stats self)
        + match a with broadcast_attack => Z.max 0 packets | _ => 0 end)%Z
  /\ attack_active self' = false
  /\ last_attack_time self' = last_attack_time self
  /\ settings self' = settings self.
Proof.
  destruct (simulate_attack_state a packets draw self)
    as (Hst & Hact & Hlast & Hset & _).
  cbn zeta in *. rewrite Hst. cbn [total deauth alerts broadcast].
  repeat split; try assumption. destruct a; lia.
Qed.

Lemma simulate_attack_signals a p draw self :
  let out := snd (simulate_attack a p draw self) in
  let k := int_of_float (inject_Z p * 0.3) in
  Z.of_nat (length (List.filter is_packet_received out)) = Z.max 0 p
  /\ length (List.filter is_attack_detected out)
     = (if ((0 <=? k) && (k <? Z.max 0 p))%Z then 1 else 0)
  /\ Forall (marked_as_attack a) out
  /\ head out
     = Some (status_update "warning"
               ("Detected potential " +:+ attack_name a +:+ " attack pattern")
               "detector")
  /\ last out
     = Some (status_update "info" "Attack simulation completed" "detector").
Proof.
  rewrite simulate_attack_unfold. cbn zeta. cbn [snd].
  destruct (attack_loop_invariant a p draw self (Z.to_nat p))
    as (_ & _ & _ & _ & _ & Hrec & Hdet & Hmark & Hhd).
  cbn zeta in Hrec, Hdet, Hmark, Hhd.
  set (r := fold_left _ _ _) in *.
  assert (Hmax : Z.of_nat (Z.to_nat p) = Z.max 0 p) by lia.
  rewrite Hmax in Hdet.
  rewrite !List.filter_app, !length_app, Hrec, Hdet. cbn.
  split; [lia|]. split; [lia|]. split; [|split].
  - apply Forall_app. split; [exact Hmark|]. constructor; [exact I|constructor].
  - destruct (snd r); [discriminate|exact Hhd].
  - apply last_snoc.
Qed.

(** X12: a simulated attack of at least one packet emits exactly one
    [attack_detected] signal and one [packet_received] signal per packet,
    between a first [status_update] that warns and a last one that reports
    the end. *)
Theorem attack_is_signalled_once
    (a : AttackType) (packets : Z) (draw : nat -> Draw)
    (self : DeauthDetector) :
  (1 <= packets)%Z ->
  let out := snd (simulate_attack a packets draw self) in
  length (List.filter is_attack_detected out) = 1
  /\ Z.of_nat (length (List.filter is_packet_received out)) = packets
  /\ head out
     = Some (status_update "warning"
               ("Detected potential " +:+ attack_name a +:+ " attack pattern")
               "detector")
  /\ last out
     = Some (status_update "info" "Attack simulation completed" "detector").
Proof.
  intros Hp.
  destruct (simulate_attack_signals a packets draw self)
    as (Hrec & Hdet & _ & Hhd & Hlast).
  cbn zeta in *.
  pose proof (int_of_float_three_tenths packets Hp) as Hk.
  split; [|split; [lia|split; assumption]].
  rewrite Hdet.
  destruct (Z.leb_spec 0 (int_of_float (inject_Z packets * 0.3))),
    (Z.ltb_spec (int_of_float (inject_Z packets * 0.3)) (Z.max 0 packets));
    cbn; lia.
Qed.

Lemma attack_is_signalled_once_witness :
  let draw (_ : nat) : Draw :=
    {| draw_clock := 5; draw_mac1 := fun _ => 171%Z; draw_mac2 := fun _ => 18%Z;
       draw_pick_broadcast := false; draw_reason := 4 |} in
  (1 <= 15)%Z
  /\ length (List.filter is_attack_detected
               (snd (simulate_attack flood_attack 15 draw (__init__ 0)))) = 1.
Proof.
  split; [lia|].
  refine (proj1 (attack_is_signalled_once flood_attack 15 _ (__init__ 0) _)).
  lia.
Defined.

(** X13: every packet a simulated attack emits is marked as an attack
    (entry attack true, type ALERT).  In a broadcast attack every packet is
    logged as Broadcast; in a targeted attack every packet is logged as
    Unicast, whatever bytes are drawn. *)
Theorem attack_packets_are_marked
    (a : AttackType) (packets : Z) (draw : nat -> Draw)
    (self : DeauthDetector) :
  Forall (marked_as_attack a) (snd (simulate_attack a packets draw self)).
Proof.
  exact (proj1 (proj2 (proj2 (simulate_attack_signals a packets draw self)))).
Qed.

Lemma settings_inv s s' :
  settings s' = settings s ->
  attack_cooldown s' = attack_cooldown s /\ normal_rate s' = normal_rate s
  /\ start_time s' = start_time s /\ running s' = running s.
Proof. unfold settings. intros H. injection H as H1 H2 H3 H4 H5. auto. Qed.

Lemma run_turn_effect t s :
  let s' := fst (run_turn t s) in
  let out := snd (run_turn t s) in
  let started := if attack_starts t s then 1%Z else 0%Z in
  alerts (stats s') = (alerts (stats s) + started)%Z
  /\ last_attack_time s'
     = (if attack_starts t s then current_time t else last_attack_time s)
  /\ settings s' = settings s
  /\ attack_active s' = (if attack_starts t s then false else attack_active s)
  /\ (total (stats s') - deauth (stats s')
      = total (stats s) - deauth (stats s))%Z
  /\ (0 <= broadcast (stats s') - broadcast (stats s)
      <= deauth (stats s') - deauth (stats s))%Z
  /\ Z.of_nat (length (List.filter is_packet_received out))
     = (deauth (stats s') - deauth (stats s))%Z
  /\ (Z.of_nat (length (List.filter is_attack_detected out)) <= started)%Z
  /\ (length (packet_history s) <= 1000 -> length (packet_history s') <= 1000).
Proof.
  unfold run_turn.
  destruct (attack_starts t s) eqn:Hstart.
  - pose proof (simulate_attack_state (turn_attack_type t) (turn_packets t)
                  (turn_draw t) s) as Hs.
    pose proof (simulate_attack_signals (turn_attack_type t) (turn_packets t)
                  (turn_draw t) s) as Hg.
    destruct (simulate_attack _ _ _ s) as [s1 out1]. cbn [fst snd] in Hs, Hg.
    destruct Hs as (Hst & Hact & Hlast & Hset & Hlen).
    destruct Hg as (Hrec & Hdet & _).
    assert (Hdet' : (Z.of_nat (length (List.filter is_attack_detected out1))
                     <= 1)%Z)
      by (rewrite Hdet; destruct (_ && _)%bool; lia).
    destruct (negb (Qle_bool (normal_rate (set_last_attack_time _ s1) / 10)
                      (normal_chance t)));
      cbn [fst snd generate_normal_packet log_packet set_last_attack_time
           stats total deauth alerts broadcast last_attack_time attack_active
           settings running interface normal_rate start_time attack_cooldown];
      rewrite ?List.filter_app, ?length_app, ?app_nil_r;
      cbn [List.filter is_packet_received is_attack_detected length];
      rewrite Hst; cbn [total deauth alerts broadcast];
      (repeat split; try lia; try exact Hact; try exact Hset;
       try (destruct (turn_attack_type t); lia)).
    all: intros H; specialize (Hlen H); rewrite ?log_packet_history_length;
      cbn [set_last_attack_time packet_history]; lia.
  - destruct (negb (Qle_bool (normal_rate s / 10) (normal_chance t)));
      cbn [fst snd generate_normal_packet log_packet
           stats total deauth alerts broadcast last_attack_time attack_active
           settings running interface normal_rate start_time attack_cooldown
           app List.filter is_packet_received is_attack_detected length];
      (repeat split; try lia).
    all: intros H; rewrite ?log_packet_history_length; lia.
Qed.

Lemma run_turns_snoc turns t s :
  run_turns (turns ++ [t]) s
  = (fst (run_turn t (fst (run_turns turns s))),
     snd (run_turns turns s) ++ snd (run_turn t (fst (run_turns turns s)))).
Proof.
  unfold run_turns. rewrite fold_left_app. cbn [fold_left].
  destruct (run_turn t _) as [s' out]. reflexivity.
Qed.

Lemma run_fold_state turns s out :
  fst (fold_left
         (fun (acc : DeauthDetector * list Signal) t =>
            let '(s', o) := run_turn t (fst acc) in (s', snd acc ++ o))
         turns (s, out))
  = fold_left (fun s t => fst (run_turn t s)) turns s.
Proof.
  revert s out. induction turns as [|t turns IH]; intros s out; [reflexivity|].
  cbn [fold_left fst snd]. destruct (run_turn t s) as [s' o] eqn:E.
  rewrite IH. cbn [fst]. reflexivity.
Qed.

Lemma run_turns_cons t turns s :
  fst (run_turns (t :: turns) s) = fst (run_turns turns (fst (run_turn t s))).
Proof. unfold run_turns. now rewrite !run_fold_state. Qed.

(** No attack starts while the clock is within the cooldown of the last
    one. *)
Lemma no_attack_within_cooldown turns s :
  Forall (fun t => (current_time t - last_attack_time s
                    <= inject_Z (attack_cooldown s))%Q) turns ->
  alerts (stats (fst (run_turns turns s))) = alerts (stats s).
Proof.
  revert s. induction turns as [|t turns IH]; intros s Hall; [reflexivity|].
  apply Forall_cons in Hall as [Ht Hall].
  assert (Hno : attack_starts t s = false).
  { unfold attack_starts. apply Qle_bool_iff in Ht. rewrite Ht.
    now rewrite andb_false_r. }
  rewrite run_turns_cons.
  destruct (run_turn_effect t s) as (Ha & Hl & Hset & _).
  cbn zeta in Ha, Hl, Hset. rewrite Hno in Ha, Hl.
  apply settings_inv in Hset as (Hcd & _).
  rewrite IH; [lia|]. now rewrite Hl, Hcd.
Qed.

(** X14: the loop of [run] starts at most one attack in any stretch of
    turns whose clock readings differ by no more than the cooldown: over
    such a stretch the alerts counter grows by at most 1. *)
Theorem one_attack_per_cooldown (turns : list Turn) (self : DeauthDetector) :
  (forall t t', t ∈ turns -> t' ∈ turns ->
     (current_time t' - current_time t <= inject_Z (attack_cooldown self))%Q) ->
  (alerts (stats self)
   <= alerts (stats (fst (run_turns turns self)))
   <= alerts (stats self) + 1)%Z.
Proof.
  revert self. induction turns as [|t turns IH]; intros self Hall;
    [simpl; lia|].
  rewrite run_turns_cons.
  destruct (run_turn_effect t self) as (Ha & Hl & Hset & _).
  cbn zeta in Ha, Hl, Hset.
  apply settings_inv in Hset as (Hcd & _).
  destruct (attack_starts t self) eqn:Hstart.
  - rewrite no_attack_within_cooldown; [lia|].
    rewrite Forall_forall. intros t' Ht'. rewrite Hl, Hcd.
    apply Hall; [left|now right].
  - assert (Hrest : (alerts (stats (fst (run_turn t self)))
                     <= alerts (stats (fst (run_turns turns
                                              (fst (run_turn t self)))))
                     <= alerts (stats (fst (run_turn t self))) + 1)%Z).
    { apply IH. intros t1 t2 H1 H2. rewrite Hcd. apply Hall; now right. }
    lia.
Qed.

Lemma one_attack_per_cooldown_witness :
  let draw (_ : nat) : Draw :=
    {| draw_clock := 5; draw_mac1 := fun _ => 171%Z; draw_mac2 := fun _ => 18%Z;
       draw_pick_broadcast := false; draw_reason := 4 |} in
  let turn (now : Q) : Turn :=
    {| current_time := now; attack_chance := 0.001;
       turn_attack_type := flood_attack; turn_packets := 15;
       turn_draw := draw; normal_chance := 0.5; turn_normal := draw 0 |} in
  (forall t t', t ∈ [turn 100%Q; turn 110%Q] -> t' ∈ [turn 100%Q; turn 110%Q] ->
     (current_time t' - current_time t
      <= inject_Z (attack_cooldown (__init__ 0)))%Q)
  /\ (alerts (stats (fst (run_turns [turn 100%Q; turn 110%Q] (__init__ 0))))
      <= alerts (stats (__init__ 0)) + 1)%Z.
Proof.
  set (draw := fun _ : nat =>
    {| draw_clock := 5; draw_mac1 := fun _ => 171%Z; draw_mac2 := fun _ => 18%Z;
       draw_pick_broadcast := false; draw_reason := 4 |}).
  set (turn := fun now : Q =>
    {| current_time := now; attack_chance := 0.001;
       turn_attack_type := flood_attack; turn_packets := 15;
       turn_draw := draw; normal_chance := 0.5; turn_normal := draw 0 |}).
  assert (Hall : forall t t',
            t ∈ [turn 100%Q; turn 110%Q] -> t' ∈ [turn 100%Q; turn 110%Q] ->
            (current_time t' - current_time t
             <= inject_Z (attack_cooldown (__init__ 0)))%Q).
  { intros t t' Ht Ht'.
    apply list_elem_of_In in Ht as [<-|[<-|[]]];
      apply list_elem_of_In in Ht' as [<-|[<-|[]]]; discriminate. }
  split; [exact Hall|].
  exact (proj2 (one_attack_per_cooldown [turn 100%Q; turn 110%Q] (__init__ 0) Hall)).
Defined.

(** X15: whatever the turns of the loop, starting from a fresh simulated
    detector the counters total and deauth stay equal, the broadcast counter
    stays between 0 and deauth, every packet counted was emitted as one
    [packet_received] signal, the [attack_detected] signals are no more than
    the alerts counted, and the history holds at most 1000 packets. *)
Theorem generator_keeps_counters_consistent (now : Q) (turns : list Turn) :
  let r := run_turns turns (__init__ now) in
  total (stats (fst r)) = deauth (stats (fst r))
  /\ (0 <= broadcast (stats (fst r)) <= deauth (stats (fst r)))%Z
  /\ Z.of_nat (length (List.filter is_packet_received (snd r)))
     = deauth (stats (fst r))
  /\ (Z.of_nat (length (List.filter is_attack_detected (snd r)))
      <= alerts (stats (fst r)))%Z
  /\ length (packet_history (fst r)) <= 1000.
Proof.
  induction turns as [|t turns IH] using rev_ind.
  - cbn. repeat split; lia.
  - cbn zeta in IH |- *. rewrite run_turns_snoc. cbn [fst snd].
    set (r := run_turns turns (__init__ now)) in *.
    destruct IH as (Ht & Hb & Hrec & Hdet & Hlen).
    destruct (run_turn_effect t (fst r))
      as (Ha & _ & _ & _ & Htd & Hbd & Hrec' & Hdet' & Hlen').
    cbn zeta in *.
    rewrite !List.filter_app, !length_app.
    repeat split; try lia;
      try (destruct (attack_starts t (fst r)); lia).
Qed.

End SimulatorTraffic.

(** ** The uptime shown by the statistics *)

Section UptimeDisplay.
Import Simulator.

Lemma round_half_even_comp q q' :
  (q == q')%Q -> round_half_even q = round_half_even q'.
Proof.
  intros H. unfold round_half_even. cbn zeta.
  rewrite (Qfloor_comp q q' H).
  replace (q - inject_Z (Qfloor q') ?= 1 # 2)%Q
    with (q' - inject_Z (Qfloor q') ?= 1 # 2)%Q; [reflexivity|].
  apply Qcompare_comp; [now rewrite H|reflexivity].
Qed.

Lemma Qfloor_add_Z q k : Qfloor (q + inject_Z k) = (Qfloor q + k)%Z.
Proof.
  destruct q as [n d]. unfold Qfloor, Qplus, inject_Z. cbn [Qnum Qden].
  rewrite Pos.mul_1_r, Z.mul_1_r. apply Z.div_add. discriminate.
Qed.

Lemma round_half_even_shift q k :
  Z.even k = true ->
  round_half_even (q + inject_Z k) = (round_half_even q + k)%Z.
Proof.
  intros Hk. unfold round_half_even. cbn zeta. rewrite Qfloor_add_Z.
  replace (q + inject_Z k - inject_Z (Qfloor q + k) ?= 1 # 2)%Q
    with (q - inject_Z (Qfloor q) ?= 1 # 2)%Q.
  - rewrite Z.even_add, Hk.
    destruct (q - inject_Z (Qfloor q) ?= 1 # 2)%Q;
      destruct (Z.even (Qfloor q)); cbn; lia.
  - apply Qcompare_comp; [|reflexivity]. rewrite inject_Z_plus. ring.
Qed.

Lemma strftime_HMS_next_day t t' :
  (t' == t + 86400)%Q -> strftime_HMS t' = strftime_HMS t.
Proof.
  intros Ht. unfold strftime_HMS. cbn zeta.
  assert (Hr : round_half_even (t' * 1000000)
               = (round_half_even (t * 1000000) + 86400000000)%Z).
  { rewrite <- round_half_even_shift by reflexivity.
    apply round_half_even_comp. rewrite Ht.
    change (inject_Z 86400000000) with (86400 * 1000000)%Q. ring. }
  rewrite Hr. set (r := round_half_even (t * 1000000)).
  replace ((r + 86400000000) / 1000000)%Z with (r / 1000000 + 86400)%Z
    by (change 86400000000%Z with (86400 * 1000000)%Z;
        rewrite Z.div_add by lia; reflexivity).
  set (secs := (r / 1000000)%Z).
  replace (((secs + 86400) / 3600) mod 24)%Z with ((secs / 3600) mod 24)%Z.
  2:{ change 86400%Z with (24 * 3600)%Z. rewrite Z.div_add by lia.
      change 24%Z with (1 * 24)%Z at 2. now rewrite Z.mod_add by lia. }
  replace (((secs + 86400) / 60) mod 60)%Z with ((secs / 60) mod 60)%Z.
  2:{ change 86400%Z with (1440 * 60)%Z. rewrite Z.div_add by lia.
      change 1440%Z with (24 * 60)%Z. now rewrite Z.mod_add by lia. }
  replace ((secs + 86400) mod 60)%Z with (secs mod 60)%Z.
  2:{ change 86400%Z with (1440 * 60)%Z. now rewrite Z.mod_add by lia. }
  reflexivity.
Qed.

(** X16: the uptime entry of the statistics shows a time of day: 24 hours
    later it reads the same, so an uptime of a day or more is shown without
    its whole days. *)
Theorem uptime_entry_wraps_after_a_day (now : Q) (self : DeauthDetector) :
  fst (get_stats (now + 86400) self) !! "uptime"
  = fst (get_stats now self) !! "uptime".
Proof.
  unfold get_stats. cbn [fst].
  rewrite !lookup_insert_eq. f_equal. f_equal.
  apply strftime_HMS_next_day. ring.
Qed.

End UptimeDisplay.

(** ** The buffers of the plot *)

Section PlotBuffers.
Import Simulator PlotCanvas.

Lemma update_plot_throttled now packet c :
  (now - last_update c < 0.2)%Q -> update_plot now packet c = (c, Returned).
Proof.
  intros Hlt. unfold update_plot.
  destruct (Qle_bool 0.2 (now - last_update c)) eqn:E; [|reflexivity].
  apply Qle_bool_iff in E. lra.
Qed.

(** X17: the plot is refreshed at most once per 200 ms: calls that arrive
    less than 0.2 s after the last refresh change none of the buffers, so
    their packets, attack packets included, are never plotted. *)
Theorem plot_ignores_calls_within_200_ms
    (calls : list (Q * gmap string Value)) (c : PlotCanvas) :
  Forall (fun call => (fst call - last_update c < 0.2)%Q) calls ->
  update_plots calls c = c.
Proof.
  induction 1 as [|call calls Hcall _ IH]; [reflexivity|].
  unfold update_plots in *. cbn [fold_left].
  now rewrite update_plot_throttled by exact Hcall.
Qed.

Lemma plot_ignores_calls_within_200_ms_witness :
  let c := fst (update_plot 10 (packet_dict 10 "a" "b" 1 true) __init__) in
  let calls := [(10.1%Q, packet_dict 10.1 "a" "b" 1 true);
                (10.15%Q, packet_dict 10.15 "a" "b" 1 true)] in
  Forall (fun call => (fst call - last_update c < 0.2)%Q) calls
  /\ update_plots calls c = c.
Proof.
  assert (H : Forall
                (fun call : Q * gmap string Value =>
                   (fst call
                    - last_update
                        (fst (update_plot 10 (packet_dict 10 "a" "b" 1 true)
                                __init__)) < 0.2)%Q)
                [(10.1%Q, packet_dict 10.1 "a" "b" 1 true);
                 (10.15%Q, packet_dict 10.15 "a" "b" 1 true)]).
  { repeat constructor. }
  split; [exact H|].
  exact (plot_ignores_calls_within_200_ms _ _ H).
Defined.

Lemma update_plot_buffers now packet c :
  let c' := fst (update_plot now packet c) in
  let fresh := deque_append 100 10%Q (data c) in
  if Qle_bool 0.2 (now - last_update c)
  then data c'
       = (if (1 <? length fresh)%nat
          then alter (fun v => max0 (v * 0.7)) (length fresh - 2) fresh
          else fresh)
       /\ timestamps c' = deque_append 100 now (timestamps c)
       /\ last_update c' = now
  else c' = c.
Proof.
  unfold update_plot.
  destruct (Qle_bool 0.2 (now - last_update c)); cbn [negb]; [|reflexivity].
  destruct (packet !! "attack"); cbn [fst data timestamps last_update]; auto.
Qed.

Lemma deque_append_length {A : Type} (x : A) (d : list A) :
  length d <= 100 ->
  length (deque_append 100 x d) = Nat.min 100 (S (length d)).
Proof.
  intros Hd. unfold deque_append.
  rewrite length_drop, length_app. cbn [length]. lia.
Qed.

(** X18: starting from an empty plot, the data and the timestamps always
    hold the same number of entries, and never more than 100. *)
Theorem plot_buffers_stay_aligned (calls : list (Q * gmap string Value)) :
  let c := update_plots calls __init__ in
  length (data c) = length (timestamps c) /\ length (data c) <= 100.
Proof.
  induction calls as [|call calls IH] using rev_ind; [cbn; lia|].
  cbn zeta in IH |- *. unfold update_plots in *.
  rewrite fold_left_app. cbn [fold_left].
  set (c := fold_left _ calls __init__) in *.
  destruct IH as [Heq Hle].
  pose proof (update_plot_buffers (fst call) (snd call) c) as Hb.
  cbn zeta in Hb.
  destruct (Qle_bool 0.2 (fst call - last_update c)).
  - destruct Hb as (Hd & Ht & _). rewrite Hd, Ht.
    assert (Hlen : length
                     (if (1 <? length (deque_append 100 10%Q (data c)))%nat
                      then alter (fun v => max0 (v * 0.7))
                             (length (deque_append 100 10%Q (data c)) - 2)
                             (deque_append 100 10%Q (data c))
                      else deque_append 100 10%Q (data c))
                   = length (deque_append 100 10%Q (data c))).
    { destruct (_ <? _)%nat; [apply length_alter|reflexivity]. }
    rewrite Hlen, !deque_append_length by lia. lia.
  - rewrite Hb. now split.
Qed.

Lemma fresh_data_shape (d : list Q) :
  length d <= 100 ->
  d = [] \/ (exists body, d = body ++ [10%Q]
                          /\ Forall (fun v => (v == 7)%Q) body) ->
  let fresh := deque_append 100 10%Q d in
  exists body,
    (if (1 <? length fresh)%nat
     then alter (fun v => max0 (v * 0.7)) (length fresh - 2) fresh
     else fresh) = body ++ [10%Q]
    /\ Forall (fun v => (v == 7)%Q) body.
Proof.
  intros Hlen [->|(body & -> & Hbody)]; cbn zeta.
  - exists []. split; [reflexivity|constructor].
  - rewrite length_app in Hlen. cbn [length] in Hlen.
    unfold deque_append. rewrite !length_app. cbn [length].
    set (k := length body + 1 + 1 - 100).
    assert (Hk : k <= length body) by (unfold k; lia).
    rewrite <- app_assoc. cbn [app].
    rewrite drop_app_le by exact Hk.
    rewrite length_app, length_drop. cbn [length].
    replace (1 <? length body - k + 2)%nat with true
      by (symmetry; apply Nat.ltb_lt; lia).
    replace (length body - k + 2 - 2) with (length (drop k body) + 0)
      by (rewrite length_drop; lia).
    rewrite alter_app_r. cbn [alter list_alter].
    exists (drop k body ++ [max0 (10 * 0.7)]). split.
    + now rewrite <- app_assoc.
    + apply Forall_app. split; [now apply Forall_drop|].
      constructor; [reflexivity|constructor].
Qed.

(** X19: starting from an empty plot, the plotted series is flat with a
    final spike: its last value is 10 and every other value is 7.  The decay
    by 0.7 reaches a value once, when the next one is appended, and never
    again. *)
Theorem plot_series_is_flat_with_a_spike
    (calls : list (Q * gmap string Value)) :
  let c := update_plots calls __init__ in
  data c = []
  \/ exists body, data c = body ++ [10%Q]
                  /\ Forall (fun v => (v == 7)%Q) body.
Proof.
  induction calls as [|call calls IH] using rev_ind; [now left|].
  cbn zeta in IH |- *.
  pose proof (plot_buffers_stay_aligned calls) as [_ Hle]. cbn zeta in Hle.
  unfold update_plots in *. rewrite fold_left_app. cbn [fold_left].
  set (c := fold_left _ calls __init__) in *.
  pose proof (update_plot_buffers (fst call) (snd call) c) as Hb.
  cbn zeta in Hb.
  destruct (Qle_bool 0.2 (fst call - last_update c)).
  - destruct Hb as (Hd & _). rewrite Hd. right.
    exact (fresh_data_shape (data c) Hle IH).
  - rewrite Hb. exact IH.
Qed.

Lemma update_plot_attack_points now packet c :
  exists added,
    attack_points (fst (update_plot now packet c)) = attack_points c ++ added
    /\ (added = [] \/ added = [now]).
Proof.
  unfold update_plot.
  destruct (negb _); [exists []; rewrite app_nil_r; auto|].
  destruct (packet !! "attack") as [v|]; cbn [fst attack_points].
  - destruct (truth v); [exists [now]|exists []; rewrite app_nil_r]; auto.
  - exists []. rewrite app_nil_r. auto.
Qed.

(** X20: the list of attack points only grows: after any calls it starts
    with what it held before, and what was added are clock readings of those
    calls, in their order.  Unlike the two deques it is never trimmed. *)
Theorem attack_points_only_grow
    (calls : list (Q * gmap string Value)) (c : PlotCanvas) :
  exists added,
    attack_points (update_plots calls c) = attack_points c ++ added
    /\ sublist added (map fst calls).
Proof.
  induction calls as [|call calls IH] using rev_ind.
  - exists []. rewrite app_nil_r. split; [reflexivity|constructor].
  - destruct IH as (added & Heq & Hsub).
    unfold update_plots in *. rewrite fold_left_app. cbn [fold_left].
    set (c' := fold_left _ calls c) in *.
    destruct (update_plot_attack_points (fst call) (snd call) c')
      as (more & Hmore & Hcase).
    exists (added ++ more). rewrite Hmore, Heq, <- app_assoc.
    split; [reflexivity|]. rewrite map_app. cbn [map].
    apply sublist_app; [exact Hsub|].
    destruct Hcase as [-> | ->]; [apply sublist_nil_l|reflexivity].
Qed.

(** X21: the packets built by [log_packet] always carry the entry that
    [update_plot] reads: the call returns, and it records an attack point
    exactly when the plot is refreshed and the packet is an attack packet. *)
Theorem plot_accepts_logged_packets
    (now t : Q) (src dst : string) (reason : Z) (attack : bool)
    (c : PlotCanvas) :
  let r := update_plot now (packet_dict t src dst reason attack) c in
  snd r = Returned
  /\ attack_points (fst r)
     = (if (Qle_bool 0.2 (now - last_update c) && attack)%bool
        then attack_points c ++ [now] else attack_points c).
Proof.
  cbn zeta. unfold update_plot.
  destruct (Qle_bool 0.2 (now - last_update c)); cbn [negb andb];
    [|split; reflexivity].
  assert (Hk : packet_dict t src dst reason attack !! "attack"
               = Some (VBool attack))
    by (unfold packet_dict; by simplify_map_eq).
  rewrite Hk. cbn [fst snd attack_points truth]. split; reflexivity.
Qed.

(** X22: a packet without the entry attack makes a refreshing call raise
    [KeyError], after the sample was recorded: the data, the timestamps and
    the time of the last refresh are those of a packet that is no attack,
    and no attack point is added. *)
Theorem plot_records_sample_before_key_error
    (now : Q) (packet : gmap string Value) (c : PlotCanvas) :
  packet !! "attack" = None ->
  (0.2 <= now - last_update c)%Q ->
  update_plot now packet c
  = (fst (update_plot now (<[ "attack" := VBool false ]> packet) c),
     KeyError "attack").
Proof.
  intros Hnone Hfresh. unfold update_plot.
  apply Qle_bool_iff in Hfresh. rewrite Hfresh. cbn [negb].
  rewrite Hnone, lookup_insert_eq. reflexivity.
Qed.

Lemma plot_records_sample_before_key_error_witness :
  (∅ : gmap string Value) !! "attack" = None
  /\ (0.2 <= 5 - last_update __init__)%Q
  /\ snd (update_plot 5 ∅ __init__) = KeyError "attack".
Proof.
  split; [apply lookup_empty|]. split; [discriminate|].
  assert (H : (0.2 <= 5 - last_update __init__)%Q) by discriminate.
  exact (f_equal snd
           (plot_records_sample_before_key_error 5 ∅ __init__
              (lookup_empty _) H)).
Defined.

End PlotBuffers.
